(** * Personal library manager: the store layer of [library_manager.py]

    The program keeps two SQLite tables, [users] and [books], and runs one
    SQL statement per operation.  This development embeds the functions of
    the "DATABASE & AUTH" and "APP FEATURES" parts of the file over an
    explicit database value and proves the properties claimed of them.

    Modelling conventions.
    - Text is a [string] of the Standard Library: a sequence of 8-bit
      characters, i.e. the bytes SQLite stores and compares for a TEXT
      value.  [lower] is Python's [str.lower] on that alphabet: the letters
      A-Z go to a-z and every other character is kept.
    - A table is the list of its rows in the order a full scan
      ([SELECT * FROM t]) returns them.
    - A row of [books] is the record [book]; its fields are in column
      order, so the tuple indices of the source read
      [book[0] = id], [book[1] = title], [book[2] = author],
      [book[3] = category].
    - [sqlite_sequence] is the counter SQLite keeps for an
      [AUTOINCREMENT] table: the largest row id ever handed out.
    - Row ids are integers without bound, as Python's [int].
    - Every statement is modelled by its effect when the engine carries it
      out.  Failures of the storage itself are outside the model: the file
      cannot be opened, or SQLite answers SQLITE_FULL because the disk or
      the 64-bit space of row ids is used up. *)

From Stdlib Require Import ZArith List String Ascii Bool Lia.
From Stdlib Require Import DecimalString DecimalZ DecimalPos.
From Stdlib Require Import Sorted.
Import ListNotations.

Open Scope string_scope.
Open Scope Z_scope.

(* ------------------------------------------------------------------ *)
(** ** Text: [str.lower] and the [in] operator                          *)
(* ------------------------------------------------------------------ *)

Module Text.

(** [c.lower()] for one character. *)
Definition lower_char (c : ascii) : ascii :=
  if (Ascii.leb "A" c && Ascii.leb c "Z")%bool
  then ascii_of_nat (nat_of_ascii c + 32)
  else c.

(** [s.lower()]. *)
Fixpoint lower (s : string) : string :=
  match s with
  | EmptyString => EmptyString
  | String c s' => String (lower_char c) (lower s')
  end.

(** [needle in hay] for two [str] values: [needle] occurs in [hay] as a
    contiguous block, starting at some position. *)
Fixpoint str_in (needle hay : string) : bool :=
  (String.prefix needle hay
   || match hay with
      | EmptyString => false
      | String _ hay' => str_in needle hay'
      end)%bool.

(** The declarative reading of [needle in hay]. *)
Definition substring_of (needle hay : string) : Prop :=
  exists pre post, hay = pre ++ needle ++ post.

End Text.

(* ------------------------------------------------------------------ *)
(** ** The database                                                     *)
(* ------------------------------------------------------------------ *)

(** A row of [books (id, title, author, category)]. *)
Record book : Type := mkBook {
  id : Z;
  title : string;
  author : string;
  category : string
}.

(** A row of [users (username, password)]. *)
Definition user : Type := (string * string)%type.

Definition username (r : user) : string := fst r.
Definition password (r : user) : string := snd r.

(** The content of [library.db]. *)
Record db : Type := mkDb {
  users : list user;
  books : list book;
  sqlite_sequence : Z
}.

(** A database file that was just created: no table has a row and no row
    id was handed out yet. *)
Definition empty_db : db := mkDb [] [] 0.

(** [init_db]: connect to [library.db] (created when absent) and create
    each table only if it does not exist; an existing file is kept as it
    is. *)
Definition init_db (file : option db) : db :=
  match file with
  | None => empty_db
  | Some d => d
  end.

(** [cur.fetchone()]: the first row of the result, or [None]. *)
Definition fetchone {A : Type} (rows : list A) : option A := hd_error rows.

(** [cur.fetchall()]. *)
Definition fetchall {A : Type} (rows : list A) : list A := rows.

(* ------------------------------------------------------------------ *)
(** ** User operations                                                  *)
(* ------------------------------------------------------------------ *)

(** [username=? AND password=?]: both TEXT comparisons are bytewise. *)
Definition user_matches (u p : string) (r : user) : bool :=
  (String.eqb (username r) u && String.eqb (password r) p)%bool.

(** [SELECT * FROM users WHERE username=? AND password=?]. *)
Definition select_users (d : db) (u p : string) : list user :=
  filter (user_matches u p) (users d).

(** [validate_user]: [cur.fetchone() is not None]. *)
Definition validate_user (d : db) (u p : string) : bool :=
  match fetchone (select_users d u p) with
  | Some _ => true
  | None => false
  end.

(** [register_user]: [INSERT INTO users VALUES (?, ?)]. *)
Definition register_user (d : db) (u p : string) : db :=
  mkDb (users d ++ [(u, p)]) (books d) (sqlite_sequence d).

(** The number of stored rows that match both fields. *)
Definition count_matching (d : db) (u p : string) : nat :=
  List.length (select_users d u p).

(* ------------------------------------------------------------------ *)
(** ** Book operations                                                  *)
(* ------------------------------------------------------------------ *)

Definition CATEGORIES : list string :=
  ["Fiction"; "Non-fiction"; "Academic"; "Religious"; "Other"].

(** The largest row id present in the table ([0] for an empty one). *)
Definition max_rowid (rows : list book) : Z :=
  fold_right (fun b m => Z.max (id b) m) 0 rows.

(** The id an [AUTOINCREMENT] insert hands out: one more than the largest
    id that is in the table or was ever handed out. *)
Definition next_id (d : db) : Z :=
  Z.max (sqlite_sequence d) (max_rowid (books d)) + 1.

(** [add_book]: [INSERT INTO books (title, author, category) VALUES (?, ?, ?)].
    The new row has the largest id, so it comes last in a scan. *)
Definition add_book (d : db) (t a c : string) : db :=
  mkDb (users d) (books d ++ [mkBook (next_id d) t a c]) (next_id d).

(** [edit_book]: [UPDATE books SET title=?, author=?, category=? WHERE id=?]. *)
Definition edit_book (d : db) (book_id : Z) (t a c : string) : db :=
  mkDb (users d)
       (map (fun b => if id b =? book_id then mkBook (id b) t a c else b)
            (books d))
       (sqlite_sequence d).

(** [delete_book]: [DELETE FROM books WHERE id=?]. *)
Definition delete_book (d : db) (book_id : Z) : db :=
  mkDb (users d)
       (filter (fun b => negb (id b =? book_id)) (books d))
       (sqlite_sequence d).

(** [get_books]: the whole table for the filter ["All"], else
    [SELECT * FROM books WHERE category=?]. *)
Definition get_books (d : db) (filter_cat : string) : list book :=
  if String.eqb filter_cat "All"
  then fetchall (books d)
  else fetchall (filter (fun b => String.eqb (category b) filter_cat) (books d)).

(** [search_books]: the list comprehension over the whole table,
    [query.lower() in book[1].lower() or query.lower() in book[2].lower()]. *)
Definition search_books (d : db) (query : string) : list book :=
  let books := fetchall (books d) in
  filter (fun book =>
            (Text.str_in (Text.lower query) (Text.lower (title book))
             || Text.str_in (Text.lower query) (Text.lower (author book)))%bool)
         books.

(** The selection the specification words for [searchBooks]: the lowered
    query occurs in the lowered author or in the lowered category. *)
Definition spec_search_match (query : string) (b : book) : bool :=
  (Text.str_in (Text.lower query) (Text.lower (author b))
   || Text.str_in (Text.lower query) (Text.lower (category b)))%bool.

(** The selection of the source, as a proposition on one row. *)
Definition title_or_author_match (query : string) (b : book) : Prop :=
  Text.substring_of (Text.lower query) (Text.lower (title b))
  \/ Text.substring_of (Text.lower query) (Text.lower (author b)).

(* ------------------------------------------------------------------ *)
(** ** Histories of a database file                                     *)
(* ------------------------------------------------------------------ *)

(** The calls that write to the database. *)
Inductive call : Type :=
| RegisterUser (u p : string)
| AddBook (t a c : string)
| EditBook (book_id : Z) (t a c : string)
| DeleteBook (book_id : Z).

Definition exec (d : db) (k : call) : db :=
  match k with
  | RegisterUser u p => register_user d u p
  | AddBook t a c => add_book d t a c
  | EditBook i t a c => edit_book d i t a c
  | DeleteBook i => delete_book d i
  end.

(** The database after a sequence of calls. *)
Definition run (d : db) (ks : list call) : db := fold_left exec ks d.

(** The ids that the [add_book] calls of a sequence were given, oldest
    first; deleting a book later does not remove its id from this list. *)
Fixpoint assigned_ids (d : db) (ks : list call) : list Z :=
  match ks with
  | [] => []
  | k :: ks' =>
      match k with
      | AddBook _ _ _ => next_id d :: assigned_ids (exec d k) ks'
      | _ => assigned_ids (exec d k) ks'
      end
  end.

(* ------------------------------------------------------------------ *)
(** ** CSV export                                                       *)
(* ------------------------------------------------------------------ *)

Module Csv.

Definition comma : ascii := ","%char.
Definition dquote : ascii := "034"%char.
Definition CR : ascii := "013"%char.
Definition LF : ascii := "010"%char.

(** The characters that force a field into quotes: the delimiter, the
    quote and the two newline characters. *)
Definition special (c : ascii) : bool :=
  (Ascii.eqb c comma || Ascii.eqb c dquote
   || Ascii.eqb c CR || Ascii.eqb c LF)%bool.

Fixpoint needs_quotes (s : string) : bool :=
  match s with
  | EmptyString => false
  | String c s' => (special c || needs_quotes s')%bool
  end.

(** Every quote of the field is doubled. *)
Fixpoint escape (s : string) : string :=
  match s with
  | EmptyString => EmptyString
  | String c s' =>
      if Ascii.eqb c dquote
      then String dquote (String dquote (escape s'))
      else String c (escape s')
  end.

Definition write_field (s : string) : string :=
  if needs_quotes s
  then String dquote (escape s ++ String dquote EmptyString)
  else s.

(** The fields of a record, separated by commas. *)
Fixpoint join_fields (fields : list string) : string :=
  match fields with
  | [] => EmptyString
  | [f] => write_field f
  | f :: rest => write_field f ++ String comma (join_fields rest)
  end.

Definition write_row (fields : list string) : string :=
  join_fields fields ++ String LF EmptyString.

(** Modelled from the spec: [DataFrame.to_csv(index=False)] of pandas,
    which is not part of the repository.  The specification has it write
    one header row and one row per record, with the standard CSV
    quoting and escaping of fields that contain delimiters, quotes or
    newlines. *)
Definition to_csv (columns : list string) (rows : list (list string)) : string :=
  String.concat EmptyString (map write_row (columns :: rows)).

(** Where the reader stands in its input. *)
Inductive state : Type :=
| StartRecord    (* at the start of a record, nothing read of it *)
| AfterCR        (* as [StartRecord], just after a carriage return *)
| StartField     (* just after a comma *)
| InField        (* inside a field without quotes *)
| InQuoted       (* inside a quoted field *)
| QuoteInQuoted. (* after a quote met inside a quoted field *)

(** The record that a line end or the end of input closes: none of its
    fields when nothing was read of it. *)
Definition close_record (st : state) (row : list string) (field : string)
  : list string :=
  match st with
  | StartRecord | AfterCR => []
  | _ => (row ++ [field])%list
  end.

Definition put (field : string) (c : ascii) : string :=
  field ++ String c EmptyString.

(** Modelled from the spec: the reader of "parsing the produced CSV back
    into rows", which the repository does not contain.  It is the usual
    CSV reader: commas separate fields, a line end (LF, CR or CR LF)
    closes a record, a field may stand in quotes and then keeps commas
    and line ends, and a doubled quote inside quotes is one quote.
    [row] holds the fields of the current record read so far and [field]
    the characters of the current field. *)
Fixpoint parse (st : state) (row : list string) (field : string)
         (input : string) : list (list string) :=
  match input with
  | EmptyString =>
      match st with
      | StartRecord | AfterCR => []
      | _ => [(row ++ [field])%list]
      end
  | String c rest =>
      match st with
      | InQuoted =>
          if Ascii.eqb c dquote
          then parse QuoteInQuoted row field rest
          else parse InQuoted row (put field c) rest
      | _ =>
          if (Ascii.eqb c LF && match st with AfterCR => true | _ => false end)%bool
          then parse StartRecord [] EmptyString rest
          else if Ascii.eqb c LF
          then close_record st row field :: parse StartRecord [] EmptyString rest
          else if Ascii.eqb c CR
          then close_record st row field :: parse AfterCR [] EmptyString rest
          else if Ascii.eqb c comma
          then parse StartField (row ++ [field])%list EmptyString rest
          else if Ascii.eqb c dquote
          then match st with
               | InField => parse InField row (put field c) rest
               | QuoteInQuoted => parse InQuoted row (put field c) rest
               | _ => parse InQuoted row field rest
               end
          else parse InField row (put field c) rest
      end
  end.

Definition read_csv (input : string) : list (list string) :=
  parse StartRecord [] EmptyString input.

(** A record of at least two fields. *)
Definition wide (r : list string) : Prop :=
  exists f g fs, r = f :: g :: fs.

End Csv.

(** [str(n)] for an [int]: decimal digits, with a minus sign when
    negative. *)
Definition str_of_int (n : Z) : string :=
  NilZero.string_of_int (Z.to_int n).

(** [int(s)] on a decimal numeral. *)
Definition int_of_str (s : string) : option Z :=
  option_map Z.of_int (NilZero.int_of_string s).

Definition columns : list string := ["ID"; "Title"; "Author"; "Category"].

(** The cells of the data frame built from the rows, one list per book. *)
Definition frame_rows (bs : list book) : list (list string) :=
  map (fun b => [str_of_int (id b); title b; author b; category b]) bs.

(** [.encode('utf-8')]: text is already a sequence of bytes here. *)
Definition encode_utf8 (s : string) : string := s.

(** [export_books_csv]. *)
Definition export_books_csv (bs : list book) : string :=
  encode_utf8 (Csv.to_csv columns (frame_rows bs)).

(** One parsed data row back as a book tuple. *)
Definition book_of_fields (fields : list string) : option book :=
  match fields with
  | [i; t; a; c] => option_map (fun n => mkBook n t a c) (int_of_str i)
  | _ => None
  end.

Fixpoint books_of_rows (rows : list (list string)) : option (list book) :=
  match rows with
  | [] => Some []
  | r :: rows' =>
      match book_of_fields r, books_of_rows rows' with
      | Some b, Some bs => Some (b :: bs)
      | _, _ => None
      end
  end.

(** Reading an exported file: the first record must be the header, every
    other record a book. *)
Definition import_books_csv (bytes : string) : option (list book) :=
  match Csv.read_csv bytes with
  | header :: rows =>
      if list_eq_dec string_dec header columns
      then books_of_rows rows
      else None
  | [] => None
  end.

(* ------------------------------------------------------------------ *)
(** ** Keys of the books table                                          *)
(* ------------------------------------------------------------------ *)

(** The rows come in strictly increasing order of id. *)
Definition increasing_ids (bs : list book) : Prop :=
  StronglySorted (fun a b => id a < id b) bs.

(** What [INTEGER PRIMARY KEY AUTOINCREMENT] maintains: ids increase along
    the table, start at 1 and never exceed the counter. *)
Definition well_keyed (d : db) : Prop :=
  increasing_ids (books d)
  /\ Forall (fun b => 1 <= id b <= sqlite_sequence d) (books d)
  /\ 0 <= sqlite_sequence d.

(** The number of [add_book] calls in a history. *)
Fixpoint count_adds (ks : list call) : nat :=
  match ks with
  | [] => 0%nat
  | AddBook _ _ _ :: ks' => S (count_adds ks')
  | _ :: ks' => count_adds ks'
  end.

(** The ids [first], [first + 1], ... , [n] of them. *)
Fixpoint ids_from (first : Z) (n : nat) : list Z :=
  match n with
  | O => []
  | S n' => first :: ids_from (first + 1) n'
  end.

(** The pairs that the [register_user] calls of a history insert, in
    order. *)
Fixpoint registered (ks : list call) : list user :=
  match ks with
  | [] => []
  | RegisterUser u p :: ks' => (u, p) :: registered ks'
  | _ :: ks' => registered ks'
  end.

(** The calls of a history that are about books. *)
Definition book_calls (ks : list call) : list call :=
  filter (fun k => match k with RegisterUser _ _ => false | _ => true end) ks.

(** How many books each category filter of a list shows, added up. *)
Fixpoint shown_per_category (d : db) (cats : list string) : nat :=
  match cats with
  | [] => 0%nat
  | c :: cats' =>
      (List.length (get_books d c) + shown_per_category d cats')%nat
  end.

(* ------------------------------------------------------------------ *)
(** ** The pages: [login_page] and [main_app]                           *)
(* ------------------------------------------------------------------ *)

Module App.

(** The truth value of a [str] in a condition: it is not empty. *)
Definition truthy (s : string) : bool := negb (String.eqb s "").

(** [l.index(x)]: the first position of [x]; [None] stands for the
    [ValueError] of an absent [x]. *)
Fixpoint index (l : list string) (x : string) : option nat :=
  match l with
  | [] => None
  | y :: l' =>
      if String.eqb y x then Some 0%nat else option_map S (index l' x)
  end.

(** The add form, once submitted: [add_book] runs only
    [if title and author and category]. *)
Definition add_form (d : db) (title author category : string) : db :=
  if (truthy title && truthy author && truthy category)%bool
  then add_book d title author category
  else d.

(** The register button: [register_user] runs only
    [if new_user and new_pwd]. *)
Definition register_form (d : db) (new_user new_pwd : string) : db :=
  if (truthy new_user && truthy new_pwd)%bool
  then register_user d new_user new_pwd
  else d.

(** The search tab:
    [search_books(cur, query) if query else get_books(cur, filter_cat)]. *)
Definition search_or_filter (d : db) (query filter_cat : string) : list book :=
  if truthy query then search_books d query else get_books d filter_cat.

(** The books whose expander is drawn in full by the loop of the first
    tab.  The select box of a book is created with
    [index=CATEGORIES.index(book[3])], which raises for a category outside
    the list and ends the run: that book and the ones after it get no
    "Save Changes" and no "Delete" button. *)
Fixpoint rendered (bs : list book) : list book :=
  match bs with
  | [] => []
  | b :: bs' =>
      match index CATEGORIES (category b) with
      | Some _ => b :: rendered bs'
      | None => []
      end
  end.

(** Is there a button for the book with this id? *)
Definition has_buttons (d : db) (book_id : Z) : bool :=
  existsb (fun b => id b =? book_id) (rendered (get_books d "All")).

(** The state of the application: the database file and
    [st.session_state.user] (absent until a login succeeds). *)
Record app : Type := mkApp {
  database : db;
  session_user : option string
}.

(** What the person at the screen can do. *)
Inductive event : Type :=
| ClickLogin (user pwd : string)
| ClickRegister (new_user new_pwd : string)
| SubmitAdd (title author category : string)
| ClickSave (book_id : Z) (new_title new_author new_cat : string)
| ClickDelete (book_id : Z).

(** A select box returns one of its options: the categories that reach
    the handlers are members of [CATEGORIES]. *)
Definition offered (e : event) : Prop :=
  match e with
  | SubmitAdd _ _ category => In category CATEGORIES
  | ClickSave _ _ _ new_cat => In new_cat CATEGORIES
  | _ => True
  end.

(** One run of the script on an event.  Without a session user the script
    shows [login_page], whose widgets are the login and register buttons;
    with one it shows [main_app].  An event of a widget that the page does
    not show cannot occur and is ignored.  Both pages begin with
    [init_db()]. *)
Definition step (s : app) (e : event) : app :=
  let d := init_db (Some (database s)) in
  match session_user s with
  | None =>
      match e with
      | ClickLogin user pwd =>
          if validate_user d user pwd
          then mkApp d (Some user)
          else mkApp d None
      | ClickRegister new_user new_pwd =>
          mkApp (register_form d new_user new_pwd) None
      | _ => mkApp d None
      end
  | Some u =>
      match e with
      | SubmitAdd title author category =>
          mkApp (add_form d title author category) (Some u)
      | ClickSave book_id new_title new_author new_cat =>
          if has_buttons d book_id
          then mkApp (edit_book d book_id new_title new_author new_cat) (Some u)
          else mkApp d (Some u)
      | ClickDelete book_id =>
          if has_buttons d book_id
          then mkApp (delete_book d book_id) (Some u)
          else mkApp d (Some u)
      | _ => mkApp d (Some u)
      end
  end.

Definition run_app (s : app) (es : list event) : app := fold_left step es s.

(** A new browser session on a database file (absent: not yet created). *)
Definition start (file : option db) : app := mkApp (init_db file) None.

(** Every stored category is one of [CATEGORIES]. *)
Definition categories_known (d : db) : Prop :=
  Forall (fun b => In (category b) CATEGORIES) (books d).

(** No stored user has an empty username or an empty password. *)
Definition credentials_filled (d : db) : Prop :=
  Forall (fun r => username r <> ""%string /\ password r <> ""%string)
         (users d).

End App.

(* ------------------------------------------------------------------ *)
(** ** Sample databases                                                 *)
(* ------------------------------------------------------------------ *)

(** A library with one book, found by a word of its title only. *)
Definition dune_db : db := add_book empty_db "Dune" "Frank Herbert" "Fiction".

(** A users table in which the same pair was registered twice. *)
Definition twice_db : db :=
  register_user (register_user empty_db "a" "p") "a" "p".

(** A small library in two categories. *)
Definition shelf_db : db :=
  add_book (add_book (add_book empty_db "Dune" "Frank Herbert" "Fiction")
                     "Calculus" "Michael Spivak" "Academic")
           "Emma" "Jane Austen" "Fiction".

(** A visit: register, log in, add two books, rename and recategorise the
    first, delete the second. *)
Definition sample_visit : list App.event :=
  [App.ClickRegister "a" "p"; App.ClickLogin "a" "p";
   App.SubmitAdd "Dune" "Frank Herbert" "Fiction";
   App.SubmitAdd "Emma" "Jane Austen" "Fiction";
   App.ClickSave 1 "Dune Messiah" "Frank Herbert" "Other";
   App.ClickDelete 2].

(** Books whose fields hold commas, quotes, line ends and nothing. *)
Definition awkward_books : list book :=
  [mkBook 1 "Dune" "Frank Herbert" "Fiction";
   mkBook 2 (String Csv.dquote "Hi, you" ++ String Csv.dquote "!")
            (String Csv.LF "A" ++ String Csv.CR "B") "";
   mkBook (-30) "" "" ","].

(* ------------------------------------------------------------------ *)
(** ** Facts about text                                                 *)
(* ------------------------------------------------------------------ *)

Module TextFacts.
Import Text.

Lemma prefix_empty (s : string) : String.prefix "" s = true.
Proof. destruct s; reflexivity. Qed.

Lemma prefix_iff (p s : string) :
  String.prefix p s = true <-> exists post, s = (p ++ post)%string.
Proof.
  revert s; induction p as [|a p IH]; intros s.
  - split; [intros _; now exists s | intros _; apply prefix_empty].
  - destruct s as [|b s]; simpl.
    + split; [discriminate | intros [post H]; discriminate].
    + destruct (ascii_dec a b) as [->|Hab].
      * rewrite IH. split; intros [post H]; exists post.
        -- now rewrite H.
        -- now injection H.
      * split; [discriminate | intros [post H]].
        injection H as H1 H2. now elim Hab.
Qed.

Lemma str_in_empty (s : string) : str_in "" s = true.
Proof. destruct s; reflexivity. Qed.

Lemma str_in_nil (needle : string) :
  str_in needle "" = String.prefix needle "".
Proof. simpl. apply orb_false_r. Qed.

Lemma str_in_cons (needle : string) (c : ascii) (hay : string) :
  str_in needle (String c hay)
  = (String.prefix needle (String c hay) || str_in needle hay)%bool.
Proof. reflexivity. Qed.

Lemma str_in_iff (needle hay : string) :
  str_in needle hay = true <-> substring_of needle hay.
Proof.
  unfold substring_of.
  induction hay as [|c hay IH]; [rewrite str_in_nil | rewrite str_in_cons].
  - rewrite prefix_iff. split.
    + intros [post H]. now exists ""%string, post.
    + intros [pre [post H]]. destruct pre; simpl in H.
      * now exists post.
      * discriminate.
  - rewrite orb_true_iff, prefix_iff, IH. split.
    + intros [[post H] | [pre [post H]]].
      * now exists ""%string, post.
      * exists (String c pre), post. simpl. now rewrite H.
    + intros [pre [post H]]. destruct pre as [|c' pre]; simpl in H.
      * left. now exists post.
      * right. injection H as _ H. now exists pre, post.
Qed.

End TextFacts.

(* ------------------------------------------------------------------ *)
(** ** Facts about the tables                                           *)
(* ------------------------------------------------------------------ *)

Lemma get_books_all (d : db) : get_books d "All" = books d.
Proof. reflexivity. Qed.

Lemma get_books_other (d : db) (c : string) :
  c <> "All"%string ->
  get_books d c = filter (fun b => String.eqb (category b) c) (books d).
Proof.
  intros Hc. unfold get_books, fetchall.
  destruct (String.eqb_spec c "All"); [contradiction | reflexivity].
Qed.

Lemma validate_user_true_iff (d : db) (u p : string) :
  validate_user d u p = true <-> In (u, p) (users d).
Proof.
  unfold validate_user, fetchone, select_users. split.
  - destruct (filter (user_matches u p) (users d)) as [|r l] eqn:E;
      [discriminate | intros _].
    assert (Hr : In r (filter (user_matches u p) (users d)))
      by (rewrite E; now left).
    apply filter_In in Hr. destruct Hr as [Hin Hm].
    unfold user_matches, username, password in Hm.
    apply andb_true_iff in Hm. destruct Hm as [Hu Hp].
    apply String.eqb_eq in Hu, Hp. destruct r as [u' p']; simpl in *.
    now subst.
  - intros Hin.
    assert (Hf : In (u, p) (filter (user_matches u p) (users d))).
    { apply filter_In. split; [assumption|].
      unfold user_matches, username, password; simpl.
      now rewrite !String.eqb_refl. }
    destruct (filter (user_matches u p) (users d)); [destruct Hf | reflexivity].
Qed.

Lemma max_rowid_ge (rows : list book) (b : book) :
  In b rows -> id b <= max_rowid rows.
Proof.
  induction rows as [|x rows IH]; simpl; [contradiction|].
  intros [->|Hin]; [lia | specialize (IH Hin); lia].
Qed.

Lemma next_id_above_rows (d : db) (b : book) :
  In b (books d) -> id b < next_id d.
Proof.
  intros Hin. apply max_rowid_ge in Hin. unfold next_id. lia.
Qed.

Lemma next_id_above_sequence (d : db) : sqlite_sequence d < next_id d.
Proof. unfold next_id. lia. Qed.

Lemma sequence_exec_mono (d : db) (k : call) :
  sqlite_sequence d <= sqlite_sequence (exec d k).
Proof.
  destruct k; simpl; try lia.
  pose proof (next_id_above_sequence d). lia.
Qed.

Lemma run_cons (d : db) (k : call) (ks : list call) :
  run d (k :: ks) = run (exec d k) ks.
Proof. reflexivity. Qed.

Lemma sequence_run_mono (ks : list call) (d : db) :
  sqlite_sequence d <= sqlite_sequence (run d ks).
Proof.
  revert d; induction ks as [|k ks IH]; intros d.
  - simpl. lia.
  - rewrite run_cons. specialize (IH (exec d k)).
    pose proof (sequence_exec_mono d k). lia.
Qed.

(** Every id handed out during a history is at most the counter at its
    end. *)
Lemma assigned_ids_below_sequence (ks : list call) (d : db) :
  Forall (fun i => i <= sqlite_sequence (run d ks)) (assigned_ids d ks).
Proof.
  revert d; induction ks as [|k ks IH]; intros d; [constructor|].
  rewrite run_cons. destruct k; simpl assigned_ids; try apply IH.
  constructor; [|apply IH].
  exact (sequence_run_mono ks (add_book d t a c)).
Qed.

Lemma edit_book_absent (d : db) (i : Z) (t a c : string) :
  ~ In i (map id (books d)) -> edit_book d i t a c = d.
Proof.
  intros Hn. unfold edit_book. destruct d as [us bs sq]; simpl in *.
  f_equal. induction bs as [|b bs IH]; simpl; [reflexivity|].
  simpl in Hn. destruct (Z.eqb_spec (id b) i) as [E|E].
  - elim Hn. now left.
  - f_equal. apply IH. intros H. apply Hn. now right.
Qed.

Lemma delete_book_absent (d : db) (i : Z) :
  ~ In i (map id (books d)) -> delete_book d i = d.
Proof.
  intros Hn. unfold delete_book. destruct d as [us bs sq]; simpl in *.
  f_equal. induction bs as [|b bs IH]; simpl; [reflexivity|].
  simpl in Hn. destruct (Z.eqb_spec (id b) i) as [E|E]; simpl.
  - elim Hn. now left.
  - f_equal. apply IH. intros H. apply Hn. now right.
Qed.

Lemma delete_book_removes (d : db) (i : Z) :
  ~ In i (map id (books (delete_book d i))).
Proof.
  unfold delete_book; simpl. rewrite in_map_iff.
  intros [b [Hid Hin]]. apply filter_In in Hin. destruct Hin as [_ Hne].
  rewrite <- Hid, Z.eqb_refl in Hne. discriminate.
Qed.

(* ------------------------------------------------------------------ *)
(** ** Searching                                                        *)
(* ------------------------------------------------------------------ *)

(** C1, as the specification words it, fails: on the library that holds
    only "Dune" by Frank Herbert in category Fiction, the query "dune"
    occurs in the title alone, the search returns the book, and the
    author-or-category selection of the specification returns nothing. *)
Lemma search_books_spec_selection_fails :
  search_books dune_db "dune" = [mkBook 1 "Dune" "Frank Herbert" "Fiction"]
  /\ filter (spec_search_match "dune") (get_books dune_db "All") = []
  /\ search_books dune_db "dune"
     <> filter (spec_search_match "dune") (get_books dune_db "All").
Proof. repeat split. discriminate. Qed.

(** C1, amended: [search_books d q] is the list of all books filtered, in
    table order, by a test that holds of a book exactly when the lowered
    query is a substring of its lowered title or of its lowered author;
    so a book is returned if and only if it is stored and matches by title
    or author, and the category plays no part: a stored book that matches
    neither by title nor by author is not returned, whatever its
    category. *)
Theorem search_books_title_or_author (d : db) (q : string) :
  (exists keep : book -> bool,
      search_books d q = filter keep (get_books d "All")
      /\ forall b, keep b = true <-> title_or_author_match q b)
  /\ (forall b, In b (search_books d q)
                <-> In b (get_books d "All") /\ title_or_author_match q b)
  /\ (forall i t a c1 c2,
         In (mkBook i t a c1) (search_books d q)
         -> In (mkBook i t a c2) (get_books d "All")
         -> In (mkBook i t a c2) (search_books d q)).
Proof.
  assert (K : forall b,
             (Text.str_in (Text.lower q) (Text.lower (title b))
              || Text.str_in (Text.lower q) (Text.lower (author b)))%bool = true
             <-> title_or_author_match q b).
  { intros b. unfold title_or_author_match.
    now rewrite orb_true_iff, !TextFacts.str_in_iff. }
  assert (M : forall b, In b (search_books d q)
                        <-> In b (get_books d "All") /\ title_or_author_match q b).
  { intros b. unfold search_books, fetchall. rewrite get_books_all, filter_In.
    now rewrite K. }
  split; [|split].
  - eexists. split; [reflexivity | exact K].
  - exact M.
  - intros i t a c1 c2 H1 H2. apply M. split; [assumption|].
    apply M in H1. exact (proj2 H1).
Qed.

(** C10: with the empty string as query, [search_books] returns the whole
    table, in the order of [get_books d "All"]; it has no branch for the
    empty query, the result follows from the empty string occurring in
    every text. *)
Theorem search_books_empty_query (d : db) :
  search_books d "" = get_books d "All".
Proof.
  unfold search_books, fetchall. rewrite get_books_all. simpl Text.lower.
  induction (books d) as [|b bs IH]; simpl filter; [reflexivity|].
  rewrite TextFacts.str_in_empty. simpl. now rewrite IH.
Qed.

(* ------------------------------------------------------------------ *)
(** ** Users                                                            *)
(* ------------------------------------------------------------------ *)

(** C2, as the specification words it, fails: after the pair ("a","p")
    was registered twice, two rows match and [validate_user] returns
    true, so it is not true that it returns true only when exactly one row
    matches. *)
Lemma validate_user_not_exactly_one :
  count_matching twice_db "a" "p" = 2%nat
  /\ validate_user twice_db "a" "p" = true
  /\ ~ (validate_user twice_db "a" "p" = true
        <-> count_matching twice_db "a" "p" = 1%nat).
Proof.
  repeat split. intros [H _]. specialize (H eq_refl). discriminate.
Qed.

(** C2, amended: [validate_user d u p] returns true if and only if at
    least one stored row matches both fields byte for byte, that is, if
    and only if the pair [(u, p)] is a row of the users table. *)
Theorem validate_user_at_least_one (d : db) (u p : string) :
  (validate_user d u p = true <-> (1 <= count_matching d u p)%nat)
  /\ (validate_user d u p = true <-> In (u, p) (users d)).
Proof.
  split; [|apply validate_user_true_iff].
  unfold validate_user, fetchone, count_matching.
  destruct (select_users d u p); simpl; split; intros H;
    try discriminate; try reflexivity; lia.
Qed.

(** C8: from every database, registering ("a","p") twice adds two rows,
    whatever the table held before, and [validate_user "a" "p"] then
    returns true. *)
Theorem register_twice_then_validate (d : db) :
  let d2 := register_user (register_user d "a" "p") "a" "p" in
  users d2 = (users d ++ [("a", "p"); ("a", "p")])%list
  /\ validate_user d2 "a" "p" = true.
Proof.
  split.
  - simpl. now rewrite <- app_assoc.
  - apply validate_user_true_iff. simpl.
    apply in_or_app. right. now left.
Qed.

(** C9: [validate_user] compares exactly.  When every stored row is the
    pair ("a","p"), [validate_user "A" "p"] is false; and for any
    database, a username and password that differ from every stored row
    in the username or in the password are rejected. *)
Theorem validate_user_exact_match :
  (forall d, (forall r, In r (users d) -> r = ("a", "p"))
             -> validate_user d "A" "p" = false)
  /\ (forall d u p,
         (forall r, In r (users d) -> username r <> u \/ password r <> p)
         -> validate_user d u p = false).
Proof.
  assert (G : forall d u p,
             (forall r, In r (users d) -> username r <> u \/ password r <> p)
             -> validate_user d u p = false).
  { intros d u p H. destruct (validate_user d u p) eqn:E; [|reflexivity].
    apply validate_user_true_iff in E. destruct (H _ E) as [N|N]; now elim N. }
  split; [|exact G].
  intros d H. apply G. intros r Hr. rewrite (H r Hr). left. discriminate.
Qed.

(** C9 on a table that holds only ("a","p"): neither ("A","p") nor
    ("a","P") is accepted. *)
Lemma validate_user_exact_match_witness :
  validate_user (register_user empty_db "a" "p") "A" "p" = false
  /\ validate_user (register_user empty_db "a" "p") "a" "P" = false.
Proof.
  split.
  - apply (proj1 validate_user_exact_match). simpl.
    intros r [<-|[]]. reflexivity.
  - apply (proj2 validate_user_exact_match). simpl.
    intros r [<-|[]]. right. discriminate.
Defined.

(* ------------------------------------------------------------------ *)
(** ** Books                                                            *)
(* ------------------------------------------------------------------ *)

(** C3: on every database, [add_book t a c] followed by
    [get_books "All"] gives the former list with one more entry at the
    end, whose fields are [t], [a], [c] and whose id is the id of no
    listed book; and after any history of calls on a fresh database file,
    that id is none of the ids the earlier [add_book] calls were given,
    deleted since or not. *)
Theorem add_book_appends_fresh_id :
  (forall d t a c,
      get_books (add_book d t a c) "All"
      = (get_books d "All" ++ [mkBook (next_id d) t a c])%list
      /\ ~ In (next_id d) (map id (get_books d "All")))
  /\ (forall ks t a c,
         let d := run (init_db None) ks in
         exists n,
           get_books (add_book d t a c) "All"
           = (get_books d "All" ++ [mkBook n t a c])%list
           /\ ~ In n (assigned_ids (init_db None) ks)
           /\ ~ In n (map id (get_books d "All"))).
Proof.
  assert (L : forall d, ~ In (next_id d) (map id (get_books d "All"))).
  { intros d. rewrite get_books_all, in_map_iff. intros [b [Hid Hin]].
    apply next_id_above_rows in Hin. lia. }
  split.
  - intros d t a c. split; [reflexivity | apply L].
  - intros ks t a c d. exists (next_id d). repeat split; [|apply L].
    intros Hin.
    pose proof (assigned_ids_below_sequence ks (init_db None)) as F.
    rewrite Forall_forall in F. specialize (F _ Hin). fold d in F.
    pose proof (next_id_above_sequence d). lia.
Qed.

(** On a fresh file: a book is added and deleted, and the next book is
    given id 2, not the freed id 1. *)
Example deleted_id_is_not_reused :
  let ks := [AddBook "Dune" "Frank Herbert" "Fiction"; DeleteBook 1] in
  assigned_ids (init_db None) ks = [1]
  /\ get_books (run (init_db None) ks) "All" = []
  /\ get_books (add_book (run (init_db None) ks) "Emma" "Jane Austen" "Fiction")
               "All"
     = [mkBook 2 "Emma" "Jane Austen" "Fiction"].
Proof. repeat split. Qed.

(** C4: [edit_book i t2 a2 c2] keeps the number and the order of the
    rows; a row whose id is [i] becomes [(i, t2, a2, c2)]; a row with
    another id is unchanged; the users table and the id counter are
    unchanged; and when no row has id [i] the database is unchanged.
    The function is total: no case raises. *)
Theorem edit_book_frame (d : db) (i : Z) (t2 a2 c2 : string) :
  let d' := edit_book d i t2 a2 c2 in
  List.length (get_books d' "All") = List.length (get_books d "All")
  /\ (forall n b, nth_error (get_books d "All") n = Some b -> id b = i ->
                  nth_error (get_books d' "All") n = Some (mkBook i t2 a2 c2))
  /\ (forall n b, nth_error (get_books d "All") n = Some b -> id b <> i ->
                  nth_error (get_books d' "All") n = Some b)
  /\ (~ In i (map id (get_books d "All")) -> d' = d)
  /\ users d' = users d
  /\ sqlite_sequence d' = sqlite_sequence d.
Proof.
  intros d'. subst d'. rewrite !get_books_all. unfold edit_book; simpl.
  repeat split.
  - apply length_map.
  - intros n b Hn Hi. rewrite nth_error_map, Hn. simpl.
    rewrite <- Hi at 1. now rewrite Z.eqb_refl, Hi.
  - intros n b Hn Hi. rewrite nth_error_map, Hn. simpl.
    destruct (Z.eqb_spec (id b) i); [contradiction | reflexivity].
  - intros Ha. now apply (edit_book_absent d i t2 a2 c2).
Qed.

Example edit_second_book :
  get_books (edit_book shelf_db 2 "Algebra" "Serge Lang" "Academic") "All"
  = [mkBook 1 "Dune" "Frank Herbert" "Fiction";
     mkBook 2 "Algebra" "Serge Lang" "Academic";
     mkBook 3 "Emma" "Jane Austen" "Fiction"]
  /\ edit_book shelf_db 7 "Algebra" "Serge Lang" "Academic" = shelf_db.
Proof. split; reflexivity. Qed.

(** C5: after [delete_book i], [get_books "All"] has no record with id
    [i] and is the former list without the records of that id, the others
    unchanged and in order; the users table and the id counter are
    unchanged; and deleting [i] once more changes nothing.  The function
    is total: no case raises. *)
Theorem delete_book_removes_then_noop (d : db) (i : Z) :
  let d' := delete_book d i in
  ~ In i (map id (get_books d' "All"))
  /\ get_books d' "All"
     = filter (fun b => negb (id b =? i)) (get_books d "All")
  /\ (forall b, In b (get_books d' "All")
                <-> In b (get_books d "All") /\ id b <> i)
  /\ delete_book d' i = d'
  /\ users d' = users d
  /\ sqlite_sequence d' = sqlite_sequence d.
Proof.
  intros d'. subst d'. rewrite !get_books_all.
  split; [apply delete_book_removes|].
  split; [reflexivity|].
  split.
  - intros b. unfold delete_book; simpl. rewrite filter_In.
    destruct (Z.eqb_spec (id b) i); simpl; intuition congruence.
  - split; [|split; reflexivity].
    apply delete_book_absent, delete_book_removes.
Qed.

(** C6: for each of the five categories [c], [get_books c] is
    [get_books "All"] filtered, in order, by "the category field equals
    [c]", so it holds exactly the books of that category; and
    [get_books "All"] is the whole table. *)
Theorem get_books_by_category (d : db) (c : string) :
  In c CATEGORIES ->
  get_books d "All" = books d
  /\ get_books d c
     = filter (fun b => String.eqb (category b) c) (get_books d "All")
  /\ (forall b, In b (get_books d c)
                <-> In b (get_books d "All") /\ category b = c).
Proof.
  intros Hc.
  assert (N : c <> "All"%string).
  { intros ->. simpl in Hc. repeat (destruct Hc as [Hc|Hc]; [discriminate|]).
    exact Hc. }
  split; [reflexivity|]. rewrite get_books_all, (get_books_other d c N).
  split; [reflexivity|].
  intros b. rewrite filter_In. now rewrite String.eqb_eq.
Qed.

(** C6 on a library of three books, two of them in Fiction. *)
Lemma get_books_by_category_witness :
  In "Fiction"%string CATEGORIES
  /\ get_books shelf_db "Fiction"
     = [mkBook 1 "Dune" "Frank Herbert" "Fiction";
        mkBook 3 "Emma" "Jane Austen" "Fiction"].
Proof.
  assert (H : In "Fiction"%string CATEGORIES) by (simpl; tauto).
  split; [exact H|].
  rewrite (proj1 (proj2 (get_books_by_category shelf_db "Fiction" H))).
  reflexivity.
Defined.

(* ------------------------------------------------------------------ *)
(** ** The CSV writer and reader                                        *)
(* ------------------------------------------------------------------ *)

Module CsvFacts.
Import Csv.

Lemma append_nil_r (s : string) : (s ++ "")%string = s.
Proof. induction s as [|c s IH]; simpl; [reflexivity | now rewrite IH]. Qed.

Lemma append_assoc (s1 s2 s3 : string) :
  ((s1 ++ s2) ++ s3)%string = (s1 ++ (s2 ++ s3))%string.
Proof. induction s1 as [|c s1 IH]; simpl; [reflexivity | now rewrite IH]. Qed.

Lemma put_append (field : string) (c : ascii) (s : string) :
  (put field c ++ s)%string = (field ++ String c s)%string.
Proof. unfold put. now rewrite append_assoc. Qed.

Lemma concat_cons (x : string) (xs : list string) :
  String.concat "" (x :: xs) = (x ++ String.concat "" xs)%string.
Proof. destruct xs; simpl; [now rewrite append_nil_r | reflexivity]. Qed.

(** *** One step of the reader *)

Lemma special_false (c : ascii) :
  special c = false ->
  Ascii.eqb c comma = false /\ Ascii.eqb c dquote = false
  /\ Ascii.eqb c CR = false /\ Ascii.eqb c LF = false.
Proof.
  unfold special. intros H.
  repeat (apply orb_false_iff in H; destruct H as [H ?]). tauto.
Qed.

Lemma parse_plain_char st row field c rest :
  st <> InQuoted -> special c = false ->
  parse st row field (String c rest) = parse InField row (put field c) rest.
Proof.
  intros Hst Hc. apply special_false in Hc.
  destruct Hc as (Hcomma & Hdq & Hcr & Hlf).
  destruct st; try contradiction; cbn [parse];
    rewrite ?Hlf, ?Hcr, ?Hcomma, ?Hdq; reflexivity.
Qed.

Lemma parse_comma st row field rest :
  st <> InQuoted ->
  parse st row field (String comma rest)
  = parse StartField (row ++ [field])%list "" rest.
Proof. intros Hst. destruct st; try contradiction; reflexivity. Qed.

Lemma parse_LF st row field rest :
  st <> InQuoted -> st <> AfterCR ->
  parse st row field (String LF rest)
  = close_record st row field :: parse StartRecord [] "" rest.
Proof. intros H1 H2. destruct st; try contradiction; reflexivity. Qed.

Lemma parse_open_quote st row rest :
  st = StartRecord \/ st = StartField ->
  parse st row "" (String dquote rest) = parse InQuoted row "" rest.
Proof. intros [-> | ->]; reflexivity. Qed.

Lemma parse_quoted_char row field c rest :
  Ascii.eqb c dquote = false ->
  parse InQuoted row field (String c rest)
  = parse InQuoted row (put field c) rest.
Proof. intros H. cbn [parse]. now rewrite H. Qed.

Lemma parse_quoted_dquote row field rest :
  parse InQuoted row field (String dquote rest)
  = parse QuoteInQuoted row field rest.
Proof. reflexivity. Qed.

Lemma parse_doubled_quote row field rest :
  parse QuoteInQuoted row field (String dquote rest)
  = parse InQuoted row (put field dquote) rest.
Proof. reflexivity. Qed.

(** *** Fields *)

(** The characters of a field written without quotes are read one by
    one into the current field. *)
Lemma parse_plain row (s : string) : forall field rest,
  needs_quotes s = false ->
  parse InField row field (s ++ rest)
  = parse InField row (field ++ s) rest.
Proof.
  induction s as [|c s IH]; intros field rest H; cbn [append].
  - now rewrite append_nil_r.
  - simpl in H. apply orb_false_iff in H. destruct H as [Hc Hs].
    rewrite parse_plain_char by (assumption || discriminate).
    rewrite IH by assumption. now rewrite put_append.
Qed.

(** The escaped characters of a quoted field, up to the closing quote. *)
Lemma parse_escaped row (s : string) : forall field rest,
  parse InQuoted row field (escape s ++ String dquote rest)
  = parse QuoteInQuoted row (field ++ s) rest.
Proof.
  induction s as [|c s IH]; intros field rest; cbn [escape append].
  - rewrite append_nil_r. apply parse_quoted_dquote.
  - destruct (Ascii.eqb c dquote) eqn:E; cbn [append].
    + apply Ascii.eqb_eq in E. subst c.
      rewrite parse_quoted_dquote, parse_doubled_quote, IH.
      now rewrite put_append.
    + rewrite parse_quoted_char by assumption.
      rewrite IH. now rewrite put_append.
Qed.

(** After a written field, the reader has the field's text in hand and
    stands in a state that a comma or a line end closes. *)
Lemma parse_write_field st row (f : string) rest :
  st = StartRecord \/ st = StartField ->
  exists st',
    parse st row "" (write_field f ++ rest) = parse st' row f rest
    /\ st' <> InQuoted /\ st' <> AfterCR
    /\ (st' = StartRecord -> st = StartRecord /\ f = ""%string).
Proof.
  intros Hst. unfold write_field.
  destruct (needs_quotes f) eqn:Q.
  - exists QuoteInQuoted. cbn [append].
    rewrite parse_open_quote by assumption.
    rewrite append_assoc. cbn [append]. rewrite parse_escaped.
    repeat split; discriminate.
  - destruct f as [|c f].
    + exists st. cbn [append]. destruct Hst as [-> | ->];
        repeat split; try discriminate; reflexivity.
    + exists InField. simpl in Q. apply orb_false_iff in Q.
      destruct Q as [Qc Qf]. cbn [append].
      rewrite parse_plain_char
        by (assumption || (destruct Hst as [-> | ->]; discriminate)).
      rewrite parse_plain by assumption.
      repeat split; discriminate.
Qed.

(** *** Records *)

(** A written record of at least one field, read after a comma. *)
Lemma parse_join_fields (fs : list string) : forall row rest,
  fs <> [] ->
  parse StartField row "" (join_fields fs ++ String LF rest)
  = (row ++ fs)%list :: parse StartRecord [] "" rest.
Proof.
  induction fs as [|f fs IH]; intros row rest Hne; [contradiction|].
  destruct fs as [|g fs].
  - simpl join_fields.
    destruct (parse_write_field StartField row f (String LF rest))
      as (st' & E & H1 & H2 & H3); [now right|].
    rewrite E, parse_LF by assumption.
    destruct st'; try contradiction; try reflexivity.
    destruct H3 as [H3 _]; [reflexivity | discriminate].
  - change (join_fields (f :: g :: fs))
      with (write_field f ++ String comma (join_fields (g :: fs)))%string.
    rewrite append_assoc.
    destruct (parse_write_field StartField row f
                (String comma (join_fields (g :: fs)) ++ String LF rest))
      as (st' & E & H1 & H2 & H3); [now right|].
    rewrite E. cbn [append]. rewrite parse_comma by assumption.
    rewrite IH by discriminate. now rewrite <- app_assoc.
Qed.

(** A written record of at least two fields, read at the start of a
    record. *)
Lemma parse_write_row (f g : string) (fs : list string) (rest : string) :
  parse StartRecord [] "" (write_row (f :: g :: fs) ++ rest)
  = (f :: g :: fs) :: parse StartRecord [] "" rest.
Proof.
  unfold write_row.
  change (join_fields (f :: g :: fs))
    with (write_field f ++ String comma (join_fields (g :: fs)))%string.
  rewrite !append_assoc.
  destruct (parse_write_field StartRecord [] f
              (String comma (join_fields (g :: fs))
               ++ String LF "" ++ rest))
    as (st' & E & H1 & H2 & H3); [now left|].
  rewrite E. cbn [append]. rewrite parse_comma by assumption.
  rewrite parse_join_fields by discriminate. reflexivity.
Qed.

Lemma read_csv_written (rows : list (list string)) :
  Forall wide rows ->
  read_csv (String.concat "" (map write_row rows)) = rows.
Proof.
  unfold read_csv. induction 1 as [|r rows (f & g & fs & ->) _ IH].
  - reflexivity.
  - cbn [map]. rewrite concat_cons, parse_write_row. now rewrite IH.
Qed.

End CsvFacts.

(* ------------------------------------------------------------------ *)
(** ** Export                                                           *)
(* ------------------------------------------------------------------ *)

Lemma int_of_str_of_int (n : Z) : int_of_str (str_of_int n) = Some n.
Proof.
  unfold int_of_str, str_of_int. rewrite NilZero.isi.
  - simpl. now rewrite DecimalZ.of_to.
  - destruct n; simpl; intros H; try discriminate.
    injection H as H. now apply Unsigned.to_uint_nonnil in H.
  - destruct n; simpl; intros H; try discriminate.
    injection H as H. now apply Unsigned.to_uint_nonnil in H.
Qed.

Lemma books_of_frame_rows (bs : list book) :
  books_of_rows (frame_rows bs) = Some bs.
Proof.
  induction bs as [|b bs IH]; [reflexivity|].
  cbn [frame_rows map books_of_rows book_of_fields].
  fold (frame_rows bs). rewrite IH, int_of_str_of_int.
  now destruct b.
Qed.

Lemma frame_rows_wide (bs : list book) : Forall Csv.wide (frame_rows bs).
Proof.
  apply Forall_forall. intros r Hr. apply in_map_iff in Hr.
  destruct Hr as [b [<- _]]. unfold Csv.wide. eauto.
Qed.

(** C7: for every sequence of books, reading the exported CSV text back
    gives the header record followed by one record per book, in order,
    whose four fields are the decimal id, the title, the author and the
    category exactly as given; so importing the export returns the input
    sequence of tuples.  Nothing is assumed of the fields: they may hold
    commas, quotes, carriage returns and line feeds, or be empty. *)
Theorem export_books_csv_roundtrip (bs : list book) :
  Csv.read_csv (export_books_csv bs) = columns :: frame_rows bs
  /\ import_books_csv (export_books_csv bs) = Some bs.
Proof.
  assert (R : Csv.read_csv (export_books_csv bs) = columns :: frame_rows bs).
  { unfold export_books_csv, encode_utf8, Csv.to_csv.
    apply CsvFacts.read_csv_written. constructor.
    - unfold Csv.wide, columns. eauto.
    - apply frame_rows_wide. }
  split; [exact R|].
  unfold import_books_csv. rewrite R.
  destruct (list_eq_dec string_dec columns columns) as [_|N];
    [apply books_of_frame_rows | now elim N].
Qed.

(** The round trip on books whose fields hold a quoted phrase with a
    comma, a line feed and a carriage return, empty text, a lone comma
    and a negative id. *)
Example export_awkward_books :
  import_books_csv (export_books_csv awkward_books) = Some awkward_books.
Proof. reflexivity. Qed.

(* ------------------------------------------------------------------ *)
(** ** Users and books over a history                                   *)
(* ------------------------------------------------------------------ *)

Lemma users_run (ks : list call) (d : db) :
  users (run d ks) = (users d ++ registered ks)%list.
Proof.
  revert d; induction ks as [|k ks IH]; intros d.
  - simpl. now rewrite app_nil_r.
  - rewrite run_cons, IH. destruct k; simpl; try reflexivity.
    now rewrite <- app_assoc.
Qed.

Lemma registered_In (ks : list call) (u p : string) :
  In (u, p) (registered ks) <-> In (RegisterUser u p) ks.
Proof.
  induction ks as [|k ks IH]; simpl; [tauto|].
  destruct k; simpl; rewrite IH.
  - split; (intros [H|H]; [left; congruence | now right]).
  - split; [now right | intros [H|H]; [discriminate | assumption]].
  - split; [now right | intros [H|H]; [discriminate | assumption]].
  - split; [now right | intros [H|H]; [discriminate | assumption]].
Qed.

(** X1: a pair is accepted by [validate_user] after a history of calls
    exactly when it was accepted before the history or [register_user]
    was called with that very pair during it.  Book calls play no part,
    and no call ever takes a login away. *)
Theorem validate_user_after_history (d : db) (ks : list call) (u p : string) :
  validate_user (run d ks) u p = true
  <-> validate_user d u p = true \/ In (RegisterUser u p) ks.
Proof.
  rewrite !validate_user_true_iff, users_run, in_app_iff.
  now rewrite registered_In.
Qed.

Lemma books_exec_register (d1 d2 : db) (k : call) :
  books d1 = books d2 -> sqlite_sequence d1 = sqlite_sequence d2 ->
  books (exec d1 k) = books (exec d2 k)
  /\ sqlite_sequence (exec d1 k) = sqlite_sequence (exec d2 k).
Proof.
  intros Hb Hs. destruct k; simpl; unfold next_id; rewrite ?Hb, ?Hs; auto.
Qed.

(** X2: the books table and the id counter after a history are those of
    the history without its [register_user] calls, and the users table
    after a history is that of the history without its book calls:
    neither table is touched by the calls on the other, so every listing
    and every search is unaffected by registrations. *)
Theorem tables_do_not_interfere (d : db) (ks : list call) :
  books (run d ks) = books (run d (book_calls ks))
  /\ sqlite_sequence (run d ks) = sqlite_sequence (run d (book_calls ks))
  /\ (forall c, get_books (run d ks) c = get_books (run d (book_calls ks)) c)
  /\ (forall q, search_books (run d ks) q
                = search_books (run d (book_calls ks)) q)
  /\ users (run d (book_calls ks)) = users d.
Proof.
  assert (G : forall ks d1 d2,
             books d1 = books d2 -> sqlite_sequence d1 = sqlite_sequence d2 ->
             books (run d1 ks) = books (run d2 (book_calls ks))
             /\ sqlite_sequence (run d1 ks)
                = sqlite_sequence (run d2 (book_calls ks))).
  { clear. induction ks as [|k ks IH]; intros d1 d2 Hb Hs; [now split|].
    rewrite run_cons. destruct k; cbn [book_calls filter];
      fold (book_calls ks); rewrite ?run_cons;
      apply IH; simpl; unfold next_id; rewrite ?Hb, ?Hs; reflexivity. }
  destruct (G ks d d eq_refl eq_refl) as [Hb Hs].
  repeat split; try assumption.
  - intros c. unfold get_books. now rewrite Hb.
  - intros q. unfold search_books. now rewrite Hb.
  - rewrite users_run.
    assert (E : registered (book_calls ks) = []).
    { clear. induction ks as [|k ks IH]; [reflexivity|].
      destruct k; simpl; assumption. }
    rewrite E. apply app_nil_r.
Qed.

(* ------------------------------------------------------------------ *)
(** ** How the book operations compose                                  *)
(* ------------------------------------------------------------------ *)

Ltac eqb_cases :=
  repeat (match goal with
          | |- context [?x =? ?y] => destruct (Z.eqb_spec x y); simpl
          end);
  try reflexivity; try congruence; try lia.

(** X3: of two edits of the same id the later one wins; an edit followed
    by the deletion of the same id is the deletion alone; and edits of
    two different ids can be done in either order. *)
Theorem edit_book_composes (d : db) (i j : Z) (t1 a1 c1 t2 a2 c2 : string) :
  edit_book (edit_book d i t1 a1 c1) i t2 a2 c2 = edit_book d i t2 a2 c2
  /\ delete_book (edit_book d i t1 a1 c1) i = delete_book d i
  /\ (i <> j ->
      edit_book (edit_book d i t1 a1 c1) j t2 a2 c2
      = edit_book (edit_book d j t2 a2 c2) i t1 a1 c1).
Proof.
  unfold edit_book, delete_book; simpl. repeat split.
  - f_equal. rewrite map_map. apply map_ext. intros b.
    destruct (Z.eqb_spec (id b) i) as [E|E]; simpl; eqb_cases.
  - f_equal. induction (books d) as [|b bs IH]; simpl; [reflexivity|].
    rewrite IH.
    destruct (Z.eqb_spec (id b) i) as [E|E]; simpl; eqb_cases.
  - intros Hij. f_equal. rewrite !map_map. apply map_ext. intros b.
    destruct (Z.eqb_spec (id b) i) as [E|E];
      destruct (Z.eqb_spec (id b) j) as [F|F]; simpl; eqb_cases.
Qed.

Lemma filter_keeps_lower_ids (bs : list book) (n : Z) :
  (forall b, In b bs -> id b < n) ->
  filter (fun b => negb (id b =? n)) bs = bs.
Proof.
  induction bs as [|b bs IH]; intros H; simpl; [reflexivity|].
  destruct (Z.eqb_spec (id b) n) as [E|E]; simpl.
  - specialize (H b (or_introl eq_refl)). lia.
  - f_equal. apply IH. intros b' Hb'. apply H. now right.
Qed.

(** X4: deleting the book that [add_book] has just inserted gives back
    the former list of books, but not the former counter: the id is used
    up, and the next book gets the id after it. *)
Theorem add_then_delete_burns_the_id (d : db) (t a c : string) :
  let d' := delete_book (add_book d t a c) (next_id d) in
  get_books d' "All" = get_books d "All"
  /\ users d' = users d
  /\ sqlite_sequence d' = next_id d
  /\ next_id d' = next_id d + 1.
Proof.
  intros d'. subst d'. rewrite !get_books_all.
  assert (B : books (delete_book (add_book d t a c) (next_id d)) = books d).
  { unfold delete_book, add_book; simpl. rewrite filter_app; simpl.
    rewrite Z.eqb_refl; simpl. rewrite app_nil_r.
    apply filter_keeps_lower_ids. intros b. apply next_id_above_rows. }
  repeat split; try assumption.
  unfold next_id at 1. rewrite B. simpl sqlite_sequence.
  unfold next_id. lia.
Qed.

(* ------------------------------------------------------------------ *)
(** ** The primary key                                                  *)
(* ------------------------------------------------------------------ *)

Lemma max_rowid_le (bs : list book) (n : Z) :
  0 <= n -> Forall (fun b => id b <= n) bs -> max_rowid bs <= n.
Proof.
  intros Hn H. induction H as [|b bs Hb _ IH]; simpl; lia.
Qed.

Lemma next_id_well_keyed (d : db) :
  well_keyed d -> next_id d = sqlite_sequence d + 1.
Proof.
  intros (_ & B & P). unfold next_id.
  assert (max_rowid (books d) <= sqlite_sequence d).
  { apply max_rowid_le; [assumption|].
    eapply Forall_impl; [|exact B]. simpl. intros; lia. }
  lia.
Qed.

Lemma increasing_ids_snoc (bs : list book) (b : book) :
  increasing_ids bs -> Forall (fun x => id x < id b) bs ->
  increasing_ids (bs ++ [b]).
Proof.
  unfold increasing_ids. induction 1 as [|x bs S IH F]; intros H; simpl.
  - constructor; constructor.
  - inversion H as [|? ? Hx Hbs]; subst. constructor; [now apply IH|].
    apply Forall_app. split; [assumption | now constructor].
Qed.

Lemma increasing_ids_map (f : book -> book) (bs : list book) :
  (forall b, id (f b) = id b) ->
  increasing_ids bs -> increasing_ids (map f bs).
Proof.
  unfold increasing_ids. intros Hf. induction 1 as [|x bs S IH F]; simpl.
  - constructor.
  - constructor; [assumption|]. apply Forall_map.
    eapply Forall_impl; [|exact F]. simpl. intros b. now rewrite !Hf.
Qed.

Lemma increasing_ids_filter (keep : book -> bool) (bs : list book) :
  increasing_ids bs -> increasing_ids (filter keep bs).
Proof.
  unfold increasing_ids. induction 1 as [|x bs S IH F]; simpl.
  - constructor.
  - destruct (keep x); [|assumption]. constructor; [assumption|].
    rewrite Forall_forall in *. intros b Hb. apply F.
    apply filter_In in Hb. tauto.
Qed.

Lemma increasing_ids_NoDup (bs : list book) :
  increasing_ids bs -> NoDup (map id bs).
Proof.
  unfold increasing_ids. induction 1 as [|x bs S IH F]; simpl; constructor.
  - rewrite in_map_iff. intros [b [E Hb]].
    rewrite Forall_forall in F. specialize (F b Hb). lia.
  - assumption.
Qed.

Lemma well_keyed_exec (d : db) (k : call) :
  well_keyed d -> well_keyed (exec d k).
Proof.
  intros W. pose proof (next_id_well_keyed d W) as N.
  destruct W as (S & B & P).
  destruct k; unfold well_keyed; cbn [exec];
    unfold register_user, add_book, edit_book, delete_book;
    cbn [books sqlite_sequence].
  - now repeat split.
  - rewrite N. repeat split; simpl; try lia.
    + apply increasing_ids_snoc; [assumption|]. simpl.
      eapply Forall_impl; [|exact B]. simpl. intros; lia.
    + apply Forall_app. split.
      * eapply Forall_impl; [|exact B]. simpl. intros; lia.
      * constructor; [simpl; lia | constructor].
  - repeat split; simpl; try assumption.
    + apply increasing_ids_map; [|assumption].
      intros b. now destruct (id b =? book_id).
    + apply Forall_map. eapply Forall_impl; [|exact B]. simpl.
      intros b Hb. now destruct (id b =? book_id).
  - repeat split; simpl; try assumption.
    + now apply increasing_ids_filter.
    + rewrite Forall_forall in *. intros b Hb. apply B.
      apply filter_In in Hb. tauto.
Qed.

Lemma well_keyed_run (ks : list call) (d : db) :
  well_keyed d -> well_keyed (run d ks).
Proof.
  revert d; induction ks as [|k ks IH]; intros d W; [exact W|].
  rewrite run_cons. apply IH. now apply well_keyed_exec.
Qed.

Lemma well_keyed_empty : well_keyed empty_db.
Proof. repeat split; simpl; try lia; constructor. Qed.

(** X5: in every database that a history of calls builds on a fresh
    file, [get_books "All"] lists the books in strictly increasing order
    of id, no two books share an id, and every id lies between 1 and the
    counter. *)
Theorem ids_stay_a_key (ks : list call) :
  let d := run (init_db None) ks in
  increasing_ids (get_books d "All")
  /\ NoDup (map id (get_books d "All"))
  /\ Forall (fun b => 1 <= id b <= sqlite_sequence d) (get_books d "All").
Proof.
  intros d. rewrite get_books_all.
  destruct (well_keyed_run ks empty_db well_keyed_empty) as (S & B & _).
  repeat split; try assumption. now apply increasing_ids_NoDup.
Qed.

Lemma assigned_ids_from (ks : list call) : forall d,
  well_keyed d ->
  assigned_ids d ks = ids_from (sqlite_sequence d + 1) (count_adds ks)
  /\ sqlite_sequence (run d ks)
     = sqlite_sequence d + Z.of_nat (count_adds ks).
Proof.
  induction ks as [|k ks IH]; intros d W.
  - simpl. split; [reflexivity | lia].
  - rewrite run_cons.
    destruct (IH (exec d k) (well_keyed_exec d k W)) as [IA IS].
    pose proof (next_id_well_keyed d W) as N.
    destruct k; cbn [assigned_ids count_adds ids_from];
      rewrite IA, IS; simpl exec; simpl sqlite_sequence;
      rewrite ?N; split; try reflexivity; lia.
Qed.

(** X6: on a fresh file the [add_book] calls are given the ids 1, 2, 3,
    ... in turn, whatever was edited or deleted in between, and the
    counter is the number of [add_book] calls made. *)
Theorem ids_are_handed_out_in_sequence (ks : list call) :
  assigned_ids (init_db None) ks = ids_from 1 (count_adds ks)
  /\ sqlite_sequence (run (init_db None) ks) = Z.of_nat (count_adds ks).
Proof.
  destruct (assigned_ids_from ks empty_db well_keyed_empty) as [A S].
  split; [exact A | exact S].
Qed.

Lemma filter_out_absent_id (bs : list book) (i : Z) :
  ~ In i (map id bs) -> filter (fun b => negb (id b =? i)) bs = bs.
Proof.
  induction bs as [|b bs IH]; simpl; intros H; [reflexivity|].
  destruct (Z.eqb_spec (id b) i) as [E|E]; simpl.
  - elim H. now left.
  - f_equal. apply IH. tauto.
Qed.

Lemma filter_out_present_id (bs : list book) (i : Z) :
  NoDup (map id bs) -> In i (map id bs) ->
  S (List.length (filter (fun b => negb (id b =? i)) bs)) = List.length bs.
Proof.
  induction bs as [|b bs IH]; simpl; intros N H; [contradiction|].
  inversion N as [|? ? Nb Nbs]; subst.
  destruct (Z.eqb_spec (id b) i) as [E|E]; simpl.
  - subst i. now rewrite filter_out_absent_id.
  - f_equal. apply IH; [assumption|]. destruct H; [contradiction | assumption].
Qed.

(** X7: in a database built on a fresh file, exactly one book has a
    given listed id: [delete_book] of a listed id makes the list one
    book shorter, and any two listed books with that id are the same
    book. *)
Theorem delete_book_removes_exactly_one (ks : list call) (i : Z) :
  In i (map id (get_books (run (init_db None) ks) "All")) ->
  S (List.length (get_books (delete_book (run (init_db None) ks) i) "All"))
  = List.length (get_books (run (init_db None) ks) "All")
  /\ (forall b1 b2,
         In b1 (get_books (run (init_db None) ks) "All") ->
         In b2 (get_books (run (init_db None) ks) "All") ->
         id b1 = i -> id b2 = i -> b1 = b2).
Proof.
  rewrite !get_books_all. intros H.
  pose proof (well_keyed_run ks empty_db well_keyed_empty) as (S & _ & _).
  change (init_db None) with empty_db in *.
  set (d := run empty_db ks) in *. split.
  - apply filter_out_present_id; [now apply increasing_ids_NoDup | exact H].
  - clear H. unfold increasing_ids in S.
    induction S as [|x bs S IH F]; intros b1 b2 H1 H2 E1 E2; [destruct H1|].
    rewrite Forall_forall in F.
    destruct H1 as [<-|H1]; destruct H2 as [<-|H2].
    + reflexivity.
    + specialize (F _ H2). lia.
    + specialize (F _ H1). lia.
    + now apply IH.
Qed.

(** X7 on the sample library: deleting book 2 leaves two of three. *)
Lemma delete_book_removes_exactly_one_witness :
  S (List.length
       (get_books
          (delete_book
             (run (init_db None)
                  [AddBook "Dune" "Frank Herbert" "Fiction";
                   AddBook "Calculus" "Michael Spivak" "Academic";
                   AddBook "Emma" "Jane Austen" "Fiction"]) 2) "All"))
  = 3%nat.
Proof.
  refine (proj1 (delete_book_removes_exactly_one
                   [AddBook "Dune" "Frank Herbert" "Fiction";
                    AddBook "Calculus" "Michael Spivak" "Academic";
                    AddBook "Emma" "Jane Austen" "Fiction"] 2 _)).
  simpl. tauto.
Defined.

(** X8: when every stored category is one of [CATEGORIES], the five
    category filters split the library: the numbers of books they show
    add up to the number of books [get_books "All"] shows. *)
Theorem categories_partition_the_books (d : db) :
  App.categories_known d ->
  shown_per_category d CATEGORIES = List.length (get_books d "All").
Proof.
  unfold App.categories_known. rewrite get_books_all.
  unfold shown_per_category, CATEGORIES, get_books, fetchall. simpl String.eqb.
  cbv iota. induction 1 as [|b bs Hb _ IH]; [reflexivity|].
  simpl in Hb. simpl List.length. rewrite <- IH. clear IH.
  destruct Hb as [E|[E|[E|[E|[E|[]]]]]]; cbn [filter]; rewrite <- E;
    simpl; lia.
Qed.

Lemma categories_partition_the_books_witness :
  shown_per_category shelf_db CATEGORIES = 3%nat.
Proof.
  apply (categories_partition_the_books shelf_db).
  repeat constructor; simpl; tauto.
Defined.

(* ------------------------------------------------------------------ *)
(** ** More on searching                                                *)
(* ------------------------------------------------------------------ *)

Module SearchFacts.
Import Text.

Lemma lower_char_idempotent (c : ascii) :
  lower_char (lower_char c) = lower_char c.
Proof.
  destruct c as [b0 b1 b2 b3 b4 b5 b6 b7].
  destruct b0, b1, b2, b3, b4, b5, b6, b7; reflexivity.
Qed.

Lemma lower_idempotent (s : string) : lower (lower s) = lower s.
Proof.
  induction s as [|c s IH]; simpl; [reflexivity|].
  now rewrite lower_char_idempotent, IH.
Qed.




Lemma search_books_In (d : db) (q : string) (b : book) :
  In b (search_books d q)
  <-> In b (books d) /\ title_or_author_match q b.
Proof.
  unfold search_books, fetchall, title_or_author_match.
  rewrite filter_In, orb_true_iff, !TextFacts.str_in_iff. reflexivity.
Qed.


End SearchFacts.

(** X9: the letter case of the query does not matter: the search with
    the lowered query returns what the search with the query returns,
    and two queries with the same lowering return the same list. *)
Theorem search_books_ignores_query_case (d : db) (q : string) :
  search_books d (Text.lower q) = search_books d q
  /\ (forall q', Text.lower q' = Text.lower q ->
                 search_books d q' = search_books d q).
Proof.
  split.
  - unfold search_books. now rewrite SearchFacts.lower_idempotent.
  - intros q' E. unfold search_books. now rewrite E.
Qed.





(** X12: what the search tab shows.  A book is shown exactly when it is
    stored and, for an empty query, the category filter is "All" or equals
    the book's category, or, for a query that is not empty, the book
    matches the query by title or author.  A query that is not empty thus
    switches the category filter off. *)
Theorem search_tab_shows (d : db) (query filter_cat : string) (b : book) :
  In b (App.search_or_filter d query filter_cat)
  <-> In b (get_books d "All")
      /\ ((query = ""%string
           /\ (filter_cat = "All"%string \/ category b = filter_cat))
          \/ (query <> ""%string /\ title_or_author_match query b)).
Proof.
  rewrite get_books_all. unfold App.search_or_filter, App.truthy.
  destruct (String.eqb_spec query "") as [Q|Q]; simpl.
  - unfold get_books, fetchall.
    destruct (String.eqb_spec filter_cat "All") as [F|F].
    + split; [intros H; split; [exact H | left; tauto] | tauto].
    + rewrite filter_In, String.eqb_eq. split.
      * intros [H1 H2]. split; [exact H1 | left; tauto].
      * intros [H1 [[_ [H2|H2]] | [H2 _]]]; try contradiction; tauto.
  - rewrite SearchFacts.search_books_In. split.
    + intros [H1 H2]. split; [exact H1 | right; tauto].
    + intros [H1 [[H2 _] | [_ H2]]]; [contradiction | tauto].
Qed.

(* ------------------------------------------------------------------ *)
(** ** The pages                                                        *)
(* ------------------------------------------------------------------ *)

Module AppFacts.
Import App.

Lemma run_app_cons (s : app) (e : event) (es : list event) :
  run_app s (e :: es) = run_app (step s e) es.
Proof. reflexivity. Qed.

Lemma truthy_true (s : string) : truthy s = true <-> s <> ""%string.
Proof.
  unfold truthy. destruct (String.eqb_spec s ""); simpl; split; intros H;
    try discriminate; try reflexivity; try assumption; now elim H.
Qed.

Lemma index_In (l : list string) (x : string) :
  In x l -> exists n, index l x = Some n.
Proof.
  induction l as [|y l IH]; simpl; [contradiction|].
  intros H. destruct (String.eqb_spec y x) as [E|E]; [now exists 0%nat|].
  destruct H as [H|H]; [contradiction|].
  destruct (IH H) as [n ->]. now exists (S n).
Qed.

Lemma rendered_known (bs : list book) :
  Forall (fun b => In (category b) CATEGORIES) bs -> rendered bs = bs.
Proof.
  induction 1 as [|b bs Hb _ IH]; [reflexivity|].
  cbn [rendered]. destruct (index_In _ _ Hb) as [n ->]. now rewrite IH.
Qed.

Lemma categories_known_step (s : app) (e : event) :
  offered e ->
  categories_known (database s) -> categories_known (database (step s e)).
Proof.
  unfold categories_known, step. intros O K.
  destruct (session_user s) as [u|];
    destruct e as [user pwd | nu np | t a c | i t a c | i];
    cbn [init_db database offered] in *; try assumption.
  - unfold add_form.
    destruct (truthy t && truthy a && truthy c)%bool; [|assumption].
    unfold add_book; cbn [books]. apply Forall_app. split; [assumption|].
    constructor; [exact O | constructor].
  - destruct (has_buttons (database s) i); cbn [database]; [|assumption].
    unfold edit_book; cbn [books].
    apply Forall_map. eapply Forall_impl; [|exact K]. cbv beta.
    intros b Hb. destruct (id b =? i); [exact O | exact Hb].
  - destruct (has_buttons (database s) i); cbn [database]; [|assumption].
    unfold delete_book; cbn [books].
    rewrite Forall_forall in *. intros b Hb. apply K.
    apply filter_In in Hb. tauto.
  - now destruct (validate_user (database s) user pwd).
  - unfold register_form.
    now destruct (truthy nu && truthy np)%bool.
Qed.

Lemma credentials_filled_step (s : app) (e : event) :
  credentials_filled (database s) -> credentials_filled (database (step s e)).
Proof.
  unfold credentials_filled, step. intros K.
  destruct (session_user s) as [u|];
    destruct e as [user pwd | nu np | t a c | i t a c | i];
    cbn [init_db database] in *; try assumption.
  - unfold add_form.
    now destruct (truthy t && truthy a && truthy c)%bool.
  - now destruct (has_buttons (database s) i).
  - now destruct (has_buttons (database s) i).
  - now destruct (validate_user (database s) user pwd).
  - unfold register_form.
    destruct (truthy nu && truthy np)%bool eqn:T; [|assumption].
    apply andb_true_iff in T. destruct T as [T1 T2].
    apply truthy_true in T1, T2. unfold register_user; cbn [users].
    apply Forall_app. split; [assumption|].
    constructor; [now split | constructor].
Qed.

Lemma session_step_sticky (s : app) (e : event) (u : string) :
  session_user s = Some u -> session_user (step s e) = Some u.
Proof.
  unfold step. intros ->.
  destruct e as [user pwd | nu np | t a c | i t a c | i];
    cbn [init_db database session_user]; try reflexivity;
    now destruct (has_buttons (database s) i).
Qed.

Lemma session_run_sticky (es : list event) (s : app) (u : string) :
  session_user s = Some u -> session_user (run_app s es) = Some u.
Proof.
  revert s; induction es as [|e es IH]; intros s H; [exact H|].
  rewrite run_app_cons. apply IH. now apply session_step_sticky.
Qed.

Lemma logged_out_step (s : app) (e : event) :
  session_user s = None ->
  books (database (step s e)) = books (database s)
  /\ sqlite_sequence (database (step s e)) = sqlite_sequence (database s).
Proof.
  unfold step. intros ->.
  destruct e as [user pwd | nu np | t a c | i t a c | i];
    cbn [init_db database]; try (split; reflexivity).
  - now destruct (validate_user (database s) user pwd).
  - unfold register_form.
    now destruct (truthy nu && truthy np)%bool.
Qed.

Lemma session_user_known_step (s : app) (e : event) :
  (forall u, session_user s = Some u ->
             exists p, In (u, p) (users (database s))) ->
  forall u, session_user (step s e) = Some u ->
            exists p, In (u, p) (users (database (step s e))).
Proof.
  unfold step. intros K u.
  destruct (session_user s) as [v|] eqn:S;
    destruct e as [user pwd | nu np | t a c | i t a c | i];
    cbn [init_db database session_user];
    try (intros H; now apply K); try discriminate.
  - unfold add_form.
    destruct (truthy t && truthy a && truthy c)%bool;
      cbn [database session_user]; intros H; now apply K.
  - destruct (has_buttons (database s) i);
      cbn [database session_user]; intros H; now apply K.
  - destruct (has_buttons (database s) i);
      cbn [database session_user]; intros H; now apply K.
  - destruct (validate_user (database s) user pwd) eqn:V;
      cbn [database session_user]; [|discriminate].
    intros H. injection H as <-. exists pwd.
    now apply validate_user_true_iff.
Qed.

End AppFacts.

(** X13: through the pages, on a fresh file, every stored category stays
    one of [CATEGORIES] as long as the select boxes deliver one of their
    options; so [CATEGORIES.index(book[3])] finds the category of every
    stored book and every listed book is drawn with its buttons. *)
Theorem pages_keep_categories_known (es : list App.event) :
  Forall App.offered es ->
  App.categories_known (App.database (App.run_app (App.start None) es))
  /\ (forall b,
         In b (get_books (App.database (App.run_app (App.start None) es)) "All")
         -> exists n, App.index CATEGORIES (category b) = Some n)
  /\ App.rendered
       (get_books (App.database (App.run_app (App.start None) es)) "All")
     = get_books (App.database (App.run_app (App.start None) es)) "All".
Proof.
  intros O.
  assert (K : App.categories_known
                (App.database (App.run_app (App.start None) es))).
  { assert (G : forall es s, Forall App.offered es ->
                  App.categories_known (App.database s) ->
                  App.categories_known (App.database (App.run_app s es))).
    { clear. induction es as [|e es IH]; intros s O K; [exact K|].
      inversion O; subst. rewrite AppFacts.run_app_cons. apply IH;
        [assumption | now apply AppFacts.categories_known_step]. }
    apply G; [assumption | constructor]. }
  split; [exact K|]. rewrite get_books_all. split.
  - intros b Hb. apply AppFacts.index_In.
    unfold App.categories_known in K. rewrite Forall_forall in K. now apply K.
  - now apply AppFacts.rendered_known.
Qed.

Lemma pages_keep_categories_known_witness :
  App.rendered
    (get_books (App.database (App.run_app (App.start None) sample_visit)) "All")
  = [mkBook 1 "Dune Messiah" "Frank Herbert" "Other"].
Proof.
  assert (O : Forall App.offered sample_visit)
    by (repeat constructor; simpl; tauto).
  rewrite (proj2 (proj2 (pages_keep_categories_known sample_visit O))).
  reflexivity.
Defined.

(** X14: through the pages, on a fresh file, no user row with an empty
    username or an empty password is ever stored, so a login with an
    empty username or an empty password is refused. *)
Theorem pages_refuse_empty_credentials (es : list App.event) (u p : string) :
  let d := App.database (App.run_app (App.start None) es) in
  App.credentials_filled d
  /\ validate_user d "" p = false
  /\ validate_user d u "" = false.
Proof.
  intros d.
  assert (K : App.credentials_filled d).
  { subst d.
    assert (G : forall es s, App.credentials_filled (App.database s) ->
                  App.credentials_filled (App.database (App.run_app s es))).
    { clear. induction es as [|e es IH]; intros s K; [exact K|].
      rewrite AppFacts.run_app_cons. apply IH.
      now apply AppFacts.credentials_filled_step. }
    apply G. constructor. }
  split; [exact K|].
  unfold App.credentials_filled in K. rewrite Forall_forall in K.
  split.
  - destruct (validate_user d "" p) eqn:V; [|reflexivity].
    apply validate_user_true_iff in V. destruct (K _ V) as [N _]. now elim N.
  - destruct (validate_user d u "") eqn:V; [|reflexivity].
    apply validate_user_true_iff in V. destruct (K _ V) as [_ N]. now elim N.
Qed.

(** X15: whatever the database file and the events, the session user,
    once set, names a stored user: some row of the users table has that
    username, with a password that [validate_user] accepts for it. *)
Theorem session_user_is_stored
        (file : option db) (es : list App.event) (u : string) :
  App.session_user (App.run_app (App.start file) es) = Some u ->
  exists p,
    In (u, p) (users (App.database (App.run_app (App.start file) es)))
    /\ validate_user (App.database (App.run_app (App.start file) es)) u p
       = true.
Proof.
  assert (G : forall es s,
             (forall u, App.session_user s = Some u ->
                        exists p, In (u, p) (users (App.database s))) ->
             forall u, App.session_user (App.run_app s es) = Some u ->
                       exists p,
                         In (u, p) (users (App.database (App.run_app s es)))).
  { clear. induction es as [|e es IH]; intros s K; [exact K|].
    rewrite AppFacts.run_app_cons. apply IH.
    now apply AppFacts.session_user_known_step. }
  intros H. destruct (G es (App.start file)) with (u := u) as [p Hp].
  - simpl. discriminate.
  - exact H.
  - exists p. split; [exact Hp | now apply validate_user_true_iff].
Qed.

Lemma session_user_is_stored_witness :
  exists p,
    In ("a"%string, p)
       (users (App.database (App.run_app (App.start None) sample_visit)))
    /\ validate_user
         (App.database (App.run_app (App.start None) sample_visit)) "a" p
       = true.
Proof.
  exact (session_user_is_stored None sample_visit "a" eq_refl).
Defined.

(** X16: before a login succeeds nothing can touch the books: if the
    session has no user at the start and none at the end of a sequence of
    events, the books table and the id counter are what they were. *)
Theorem books_need_a_login (s : App.app) (es : list App.event) :
  App.session_user s = None ->
  App.session_user (App.run_app s es) = None ->
  books (App.database (App.run_app s es)) = books (App.database s)
  /\ sqlite_sequence (App.database (App.run_app s es))
     = sqlite_sequence (App.database s).
Proof.
  revert s; induction es as [|e es IH]; intros s H0 H1; [now split|].
  rewrite AppFacts.run_app_cons in *.
  destruct (AppFacts.logged_out_step s e H0) as [B S].
  destruct (App.session_user (App.step s e)) as [u|] eqn:E.
  - rewrite (AppFacts.session_run_sticky es _ u E) in H1. discriminate.
  - destruct (IH _ E H1) as [B' S']. split; congruence.
Qed.

Lemma books_need_a_login_witness :
  books (App.database
           (App.run_app (App.start (Some shelf_db))
              [App.SubmitAdd "Ulysses" "James Joyce" "Fiction";
               App.ClickDelete 1; App.ClickLogin "a" "p";
               App.ClickSave 2 "x" "y" "Other"]))
  = books shelf_db.
Proof.
  exact (proj1 (books_need_a_login
                  (App.start (Some shelf_db))
                  [App.SubmitAdd "Ulysses" "James Joyce" "Fiction";
                   App.ClickDelete 1; App.ClickLogin "a" "p";
                   App.ClickSave 2 "x" "y" "Other"] eq_refl eq_refl)).
Defined.

(** X17: the pages have no logout and no change of user: once the session
    has a user, it has that user after every further event. *)
Theorem session_user_stays (s : App.app) (es : list App.event) (u : string) :
  App.session_user s = Some u ->
  App.session_user (App.run_app s es) = Some u.
Proof. apply AppFacts.session_run_sticky. Qed.

Lemma session_user_stays_witness :
  App.session_user
    (App.run_app (App.mkApp shelf_db (Some "a"%string))
       [App.ClickLogin "b" "q"; App.ClickRegister "b" "q"; App.ClickDelete 1])
  = Some "a"%string.
Proof.
  exact (session_user_stays (App.mkApp shelf_db (Some "a"%string))
           [App.ClickLogin "b" "q"; App.ClickRegister "b" "q";
            App.ClickDelete 1] "a" eq_refl).
Defined.



(* ------------------------------------------------------------------ *)
(** ** Listings after a change                                          *)
(* ------------------------------------------------------------------ *)

Lemma get_books_In (d : db) (c : string) (b : book) :
  In b (get_books d c) -> In b (books d).
Proof.
  unfold get_books, fetchall. destruct (String.eqb c "All"); [tauto|].
  rewrite filter_In. tauto.
Qed.

(** X19: a deleted book is gone from every view, not only from the full
    list: after [delete_book i] no category filter, no search and no
    result of the search tab holds a book with id [i]. *)
Theorem deleted_book_is_in_no_view (d : db) (i : Z) (q c : string) :
  ~ In i (map id (get_books (delete_book d i) c))
  /\ ~ In i (map id (search_books (delete_book d i) q))
  /\ ~ In i (map id (App.search_or_filter (delete_book d i) q c)).
Proof.
  assert (G : forall l, (forall b, In b l -> In b (books (delete_book d i))) ->
                        ~ In i (map id l)).
  { intros l H Hi. apply in_map_iff in Hi. destruct Hi as [b [E Hb]].
    apply (delete_book_removes d i). apply in_map_iff. exists b.
    split; [exact E | now apply H]. }
  assert (S : forall b, In b (search_books (delete_book d i) q) ->
                        In b (books (delete_book d i))).
  { intros b Hb. apply SearchFacts.search_books_In in Hb. tauto. }
  repeat split; apply G.
  - intros b. apply get_books_In.
  - exact S.
  - intros b. unfold App.search_or_filter.
    destruct (App.truthy q); [apply S | apply get_books_In].
Qed.

(** X20: a book that was just added comes last in the full list and in
    the list of its own category, is absent from the list of every other
    category, leaves the entries of all lists before it as they were, and
    is found by a search for its title. *)
Theorem added_book_in_the_views (d : db) (t a c c' : string) :
  let b := mkBook (next_id d) t a c in
  get_books (add_book d t a c) c'
  = (get_books d c'
     ++ (if (String.eqb c' "All" || String.eqb c c')%bool then [b] else []))%list
  /\ search_books (add_book d t a c) t = (search_books d t ++ [b])%list.
Proof.
  intros b. split.
  - unfold get_books, fetchall, add_book; cbn [books].
    destruct (String.eqb c' "All"); [reflexivity|].
    rewrite filter_app. cbn [filter category orb].
    now destruct (String.eqb c c').
  - unfold search_books, fetchall, add_book; cbn [books].
    rewrite filter_app. cbn [filter title].
    assert (M : Text.str_in (Text.lower t) (Text.lower t) = true).
    { apply TextFacts.str_in_iff. exists ""%string, ""%string. simpl.
      now rewrite CsvFacts.append_nil_r. }
    now rewrite M.
Qed.
